(** * kubetest2-gce deployer: construction, naming, kubeconfig lookup, build

    A shallow embedding of [kubetest2-gce/deployer/deployer.go] (and the
    [Build] method shipped next to it) together with a model of the
    leased-resource manager that the design document describes.

    Go strings are byte sequences, so they are embedded as [string]
    (sequences of 8-bit [ascii]); [len] is [String.length] and the slice
    [s[:n]] is [substring 0 n s].  Go [int] fields are embedded as [Z]. *)

From Stdlib Require Import String Ascii List ZArith Bool Arith Lia.
Import ListNotations.

Local Open Scope string_scope.

(** * Part I: the program *)

(** ** Go strings *)

Module GoString.

(** [s[:n]], for [n <= len(s)] (Go panics otherwise). *)
Definition slice_to (s : string) (n : nat) : string := substring 0 n s.

(** The first byte of a string, when it has one. *)
Definition first_byte (s : string) : option ascii := String.get 0 s.

(** An ASCII letter: [a-z] or [A-Z]. *)
Definition is_letter (c : ascii) : bool :=
  let n := nat_of_ascii c in
  ((97 <=? n)%nat && (n <=? 122)%nat) || ((65 <=? n)%nat && (n <=? 90)%nat).

Definition starts_with_letter (s : string) : bool :=
  match first_byte s with
  | Some c => is_letter c
  | None => false
  end.

End GoString.

(** ** The parts of the host that the deployer only calls *)

(** What a Go function that may end the process through [klog.Fatalf]
    does: it returns, or the process stops with a message. *)
Inductive outcome (A : Type) : Type :=
| Returned (a : A)
| Fatal (msg : string).
Arguments Returned {A} a.
Arguments Fatal {A} msg.

(** [types.Options]: an interface; a value of it is given by what its
    methods answer. *)
Record Options : Type := mkOptions {
  RunID : string;
  RunDir : string;
  ShouldBuild : bool;
  ShouldUp : bool;
  ShouldDown : bool;
  ShouldTest : bool
}.

(** [build.Options] as filled in by [New]. *)
Inductive Builder := NoopBuilder.
Inductive Stager := NoopStager.

Record CommonBuildOptions : Type := mkCommonBuildOptions {
  cbo_Builder : Builder;
  cbo_Stager : Stager;
  cbo_Strategy : string;
  cbo_TargetBuildArch : string
}.

Record BuildOptions : Type := mkBuildOptions {
  bo_CommonBuildOptions : CommonBuildOptions
}.

(** A [chan struct{}] used only as a close signal. *)
Inductive SignalChan := ChanOpen | ChanClosed.

(** A flag set, as the names of the flags it holds. *)
Definition FlagSet := list string.

Module Gce.

(** [type Deployer struct]; [boskos] is [None] for a nil client and
    names the client otherwise; [doInit] says whether the [sync.Once] has
    run. *)
Record Deployer : Type := mkDeployer {
  commonOptions : Options;
  BuildOptions_ : option BuildOptions;
  doInit : bool;
  kubeconfigPath : string;
  kubectlPath : string;
  logsDir : string;
  boskos : option string;
  boskosHeartbeatClose : option SignalChan;
  instancePrefix : string;
  network : string;
  Env : list string;
  BoskosAcquireTimeoutSeconds : Z;
  BoskosHeartbeatIntervalSeconds : Z;
  RepoRoot : string;
  GCPProject : string;
  GCPZone : string;
  EnableComputeAPI : bool;
  OverwriteLogsDir : bool;
  BoskosLocation : string;
  LegacyMode : bool;
  NumNodes : Z;
  EnableCacheMutationDetector : bool;
  RuntimeConfig : string;
  EnablePodSecurityPolicy : bool;
  CreateCustomNetwork : bool;
  NodeScopes : string;
  NodeServiceAccount : string;
  CloudProvider : string;
  FeatureGates : string;
  MasterSize : string;
  NodeSize : string;
  IngressGCEImage : string
}.

(** The library calls of [New] whose bodies are outside the package:
    [filepath.Join] on two elements, [artifacts.BaseDir()],
    [gpflag.Parse] (a flag set, or an error message) and the process-wide
    [goflag.CommandLine]. *)
Record Host : Type := mkHost {
  filepath_Join : string -> string -> string;
  artifacts_BaseDir : string;
  gpflag_Parse : Deployer -> FlagSet + string;
  goflag_CommandLine : FlagSet
}.

(** [const Name = "gce"] and [var GitTag string]. *)
Definition Name : string := "gce".

Definition maxResourceNamePrefixLength : nat := 13.

(** [func pseudoUniqueSubstring(uuid string) string] *)
Definition pseudoUniqueSubstring (uuid : string) : string :=
  if (String.length uuid <=? maxResourceNamePrefixLength)%nat then uuid
  else GoString.slice_to uuid maxResourceNamePrefixLength.

(** The struct literal of [New]; fields it does not name hold Go's
    zero values. *)
Definition New_literal (h : Host) (opts : Options) : Deployer :=
  {| commonOptions := opts;
     BuildOptions_ :=
       Some {| bo_CommonBuildOptions :=
                 {| cbo_Builder := NoopBuilder;
                    cbo_Stager := NoopStager;
                    cbo_Strategy := "make";
                    cbo_TargetBuildArch := "linux/amd64" |} |};
     doInit := false;
     kubeconfigPath := filepath_Join h (RunDir opts) "kubetest2-kubeconfig";
     kubectlPath := "";
     logsDir := filepath_Join h (artifacts_BaseDir h) "cluster-logs";
     boskos := None;
     boskosHeartbeatClose := Some ChanOpen;
     instancePrefix := "kt2-" ++ pseudoUniqueSubstring (RunID opts);
     network := "kt2-" ++ pseudoUniqueSubstring (RunID opts);
     Env := [];
     BoskosAcquireTimeoutSeconds := 5 * 60;
     BoskosHeartbeatIntervalSeconds := 5 * 60;
     RepoRoot := "";
     GCPProject := "";
     GCPZone := "";
     EnableComputeAPI := false;
     OverwriteLogsDir := false;
     BoskosLocation := "http://boskos.test-pods.svc.cluster.local.";
     LegacyMode := false;
     NumNodes := 3;
     EnableCacheMutationDetector := false;
     RuntimeConfig := "";
     EnablePodSecurityPolicy := false;
     CreateCustomNetwork := false;
     NodeScopes := "";
     NodeServiceAccount := "";
     CloudProvider := "";
     FeatureGates := "";
     MasterSize := "";
     NodeSize := "";
     IngressGCEImage := "" |}.

(** [func New(opts types.Options) (types.Deployer, *pflag.FlagSet)] *)
Definition New (h : Host) (opts : Options) : outcome (Deployer * FlagSet) :=
  let d := New_literal h opts in
  match gpflag_Parse h d with
  | inr err =>
      Fatal ("couldn't parse flagset for Deployer struct: " ++ err)
  | inl flagSet =>
      let flagSet := (flagSet ++ goflag_CommandLine h)%list in
      Returned (d, flagSet)
  end.

(** [func (d *Deployer) Provider() string] *)
Definition Provider (d : Deployer) : string := Name.

(** [func (d *Deployer) Version() string], for a given value of the
    package variable [GitTag]. *)
Definition Version (GitTag : string) (d : Deployer) : string := GitTag.

End Gce.

(** ** The file system as [os.Stat] sees it *)

Module Os.

(** The error numbers [stat] reports. *)
Inductive Errno := ENOENT | EACCES | ENOTDIR | ELOOP | ENAMETOOLONG | EIO.

Definition Errno_Error (e : Errno) : string :=
  match e with
  | ENOENT => "no such file or directory"
  | EACCES => "permission denied"
  | ENOTDIR => "not a directory"
  | ELOOP => "too many levels of symbolic links"
  | ENAMETOOLONG => "file name too long"
  | EIO => "input/output error"
  end.

(** A failure of the lookup itself, whatever the path names: a directory
    that may not be searched, a symbolic-link loop, a failing device. *)
Inductive Fault := NoSearchPermission | LinkLoop | DeviceError.

Definition Fault_errno (f : Fault) : Errno :=
  match f with
  | NoSearchPermission => EACCES
  | LinkLoop => ELOOP
  | DeviceError => EIO
  end.

(** What is at a path: whether a file is there, and whether looking it
    up fails. *)
Record PathStatus : Type := mkPathStatus {
  present : bool;
  fault : option Fault
}.

Definition FileSys := string -> PathStatus.

Definition file_exists (fs : FileSys) (name : string) : bool :=
  present (fs name).

(** [*os.PathError] *)
Record PathError : Type := mkPathError {
  pe_Op : string;
  pe_Path : string;
  pe_Err : Errno
}.

Definition PathError_Error (e : PathError) : string :=
  pe_Op e ++ " " ++ pe_Path e ++ ": " ++ Errno_Error (pe_Err e).

(** [os.Stat(name)], keeping only the error: [None] is [nil]. *)
Definition Stat (fs : FileSys) (name : string) : option PathError :=
  match fault (fs name) with
  | Some f => Some (mkPathError "stat" name (Fault_errno f))
  | None =>
      if present (fs name) then None
      else Some (mkPathError "stat" name ENOENT)
  end.

(** [os.IsNotExist(err)] *)
Definition IsNotExist (err : option PathError) : bool :=
  match err with
  | Some e => match pe_Err e with ENOENT => true | _ => false end
  | None => false
  end.

End Os.

(** ** [Kubeconfig] and the method set *)

Module GceKubeconfig.
Import Gce.

(** A Go [error] made by [fmt.Errorf], as its message; [None] is [nil]. *)
Definition error := option string.

(** [func (d *Deployer) Kubeconfig() (string, error)]: the receiver is a
    pointer, so the deployer after the call is part of the result. *)
Definition Kubeconfig (fs : Os.FileSys) (d : Deployer)
  : Deployer * (string * error) :=
  let err := Os.Stat fs (kubeconfigPath d) in
  if Os.IsNotExist err then
    (d, ("", Some ("kubeconfig does not exist at: " ++ kubeconfigPath d)))
  else
    match err with
    | Some e =>
        (d, ("", Some ("unknown error when checking for kubeconfig at "
                         ++ kubeconfigPath d ++ ": " ++ Os.PathError_Error e)))
    | None => (d, (kubeconfigPath d, None))
    end.

(** The methods of [*Deployer] in [deployer.go], and what a call of one
    gives back. *)
Inductive Method := MProvider | MVersion | MKubeconfig.

Inductive Reply :=
| RString (s : string)
| RStringErr (s : string) (e : error).

Definition invoke (GitTag : string) (fs : Os.FileSys) (m : Method)
           (d : Deployer) : Deployer * Reply :=
  match m with
  | MProvider => (d, RString (Provider d))
  | MVersion => (d, RString (Version GitTag d))
  | MKubeconfig =>
      let '(d', (s, e)) := Kubeconfig fs d in (d', RStringErr s e)
  end.

(** The deployer after a sequence of method calls, each against the
    file system of its moment. *)
Fixpoint invoke_all (GitTag : string) (calls : list (Os.FileSys * Method))
         (d : Deployer) : Deployer :=
  match calls with
  | [] => d
  | (fs, m) :: rest => invoke_all GitTag rest (fst (invoke GitTag fs m d))
  end.

End GceKubeconfig.

(** ** [Build] *)

Module NodeImageBuild.

(** The receiver of [Build]: the fields that [Build] reads. *)
Record Deployer : Type := mkDeployer {
  commonOptions : Options;
  BuildType : string;
  KubeRoot : string;
  NodeImage : string
}.

(** What [Build] calls outside the package: the constant
    [kindDefaultBuiltImageName], [os.Environ()], and the result of
    [process.ExecJUnit] ([None] is a nil error). *)
Record Host : Type := mkHost {
  kindDefaultBuiltImageName : string;
  os_Environ : list string;
  process_ExecJUnit : string -> list string -> list string -> option string
}.

(** The calls [Build] makes, in order. *)
Inductive Call :=
| KlogInfof (msg : string)
| ExecJUnit (cmd : string) (args : list string) (env : list string)
| StoreCommonBinaries (kubeRoot runDir : string).

(** The argument vector [Build] assembles. *)
Definition Build_args (h : Host) (d : Deployer) : list string :=
  let args := ["build"; "node-image"] in
  let args :=
    if (BuildType d =? "")%string then args
    else (args ++ ["--type"; BuildType d])%list in
  let args :=
    if (KubeRoot d =? "")%string then args
    else (args ++ ["--kube-root"; KubeRoot d])%list in
  if negb (NodeImage d =? "")%string then
    (args ++ ["--image"; NodeImage d])%list
  else if ShouldBuild (commonOptions d) then
    (args ++ ["--image"; kindDefaultBuiltImageName h])%list
  else args.

(** [func (d *Deployer) Build() error]: the calls made and the error
    returned. *)
Definition Build (h : Host) (d : Deployer) : list Call * option string :=
  let args := Build_args h d in
  let log := [KlogInfof "Build(): building kind node image...
"] in
  let log := (log ++ [ExecJUnit "kind" args (os_Environ h)])%list in
  match process_ExecJUnit h "kind" args (os_Environ h) with
  | Some err => (log, Some err)
  | None =>
      ((log ++ [StoreCommonBinaries (KubeRoot d) (RunDir (commonOptions d))])%list,
       None)
  end.

(** The arguments before the image: the subcommand, then the build type
    and the source root where they are set. *)
Definition base_args (d : Deployer) : list string :=
  (["build"; "node-image"]
     ++ (if (BuildType d =? "")%string then [] else ["--type"; BuildType d])
     ++ (if (KubeRoot d =? "")%string then [] else ["--kube-root"; KubeRoot d]))%list.

Definition is_exec (c : Call) : bool :=
  match c with ExecJUnit _ _ _ => true | _ => false end.

End NodeImageBuild.

(** ** The leased-resource manager *)

Module LeasedResource.

(** Modelled from the spec: a Lease (section 3), the claim on a pooled
    project that a successful Acquire returns; the pool client's types
    are not part of [deployer.go]. *)
Record Lease : Type := mkLease {
  lease_pool : string;
  lease_project : string;
  lease_owner : string
}.

(** Modelled from the spec: what the pool service answers to Acquire,
    Heartbeat and Release (section 4.1). *)
Inductive AcquireResult := Granted (l : Lease) | TimeoutError | PoolError.
Inductive HeartbeatResult := HeartbeatOk | LeaseLostError.
Inductive ReleaseResult := ReleaseOk | ReleaseWarning.

(** Modelled from the spec: the configuration surface the manager
    consumes (section 6); [config_of] reads it off the deployer's flag
    fields, which are in [deployer.go]. *)
Record Config : Type := mkConfig {
  cfg_project : string;
  cfg_acquireTimeout : Z;
  cfg_heartbeatInterval : Z;
  cfg_poolLocation : string
}.

Definition config_of (d : Gce.Deployer) : Config :=
  {| cfg_project := Gce.GCPProject d;
     cfg_acquireTimeout := Gce.BoskosAcquireTimeoutSeconds d;
     cfg_heartbeatInterval := Gce.BoskosHeartbeatIntervalSeconds d;
     cfg_poolLocation := Gce.BoskosLocation d |}.

(** Modelled from the spec: what an observer of a run sees, oldest
    first: the three pool calls with their answers, the life of the
    heartbeat loop, and the calls and returns of [Teardown]. *)
Inductive Event :=
| EvAcquire (timeoutSeconds : Z) (r : AcquireResult)
| EvLoopStart
| EvHeartbeat (l : Lease) (r : HeartbeatResult)
| EvStopSignal
| EvLoopExit
| EvRelease (l : Lease) (r : ReleaseResult)
| EvTeardownCall
| EvTeardownReturn.

(** Modelled from the spec: the HeartbeatLoop of a manager is not
    started, running, or has exited (section 4.2). *)
Inductive LoopState := NoLoop | LoopRunning | LoopExited.

(** Modelled from the spec: the ResourceManager with its HeartbeatLoop
    (design sections 4.2, 4.3 and 5); the acquire, heartbeat and release
    code of the deployer is not part of [deployer.go].  [joining] says
    that a [Teardown] call has signalled the loop and waits for it to
    exit; [closed] says that teardown was requested: the lifecycle has
    left its forward path for TearingDown, from where no phase asks for
    a project any more (4.4). *)
Record State : Type := mkState {
  resolvedProject : option string;
  lease : option Lease;
  loop : LoopState;
  stopSignal : bool;
  joining : bool;
  closed : bool;
  leaseLost : bool;
  trace : list Event
}.

Definition init : State :=
  mkState None None NoLoop false false false false [].

Definition set_resolvedProject (p : string) (s : State) : State :=
  mkState (Some p) (lease s) (loop s) (stopSignal s) (joining s)
          (closed s) (leaseLost s) (trace s).

Definition set_lease (l : option Lease) (s : State) : State :=
  mkState (resolvedProject s) l (loop s) (stopSignal s) (joining s)
          (closed s) (leaseLost s) (trace s).

Definition set_loop (x : LoopState) (s : State) : State :=
  mkState (resolvedProject s) (lease s) x (stopSignal s) (joining s)
          (closed s) (leaseLost s) (trace s).

Definition set_stopSignal (s : State) : State :=
  mkState (resolvedProject s) (lease s) (loop s) true (joining s)
          (closed s) (leaseLost s) (trace s).

Definition set_joining (b : bool) (s : State) : State :=
  mkState (resolvedProject s) (lease s) (loop s) (stopSignal s) b
          (closed s) (leaseLost s) (trace s).

Definition set_closed (s : State) : State :=
  mkState (resolvedProject s) (lease s) (loop s) (stopSignal s) (joining s)
          true (leaseLost s) (trace s).

Definition set_leaseLost (s : State) : State :=
  mkState (resolvedProject s) (lease s) (loop s) (stopSignal s) (joining s)
          (closed s) true (trace s).

Definition emit (es : list Event) (s : State) : State :=
  mkState (resolvedProject s) (lease s) (loop s) (stopSignal s) (joining s)
          (closed s) (leaseLost s) (trace s ++ es).

(** Modelled from the spec: steps 1 and 2 of the ResourceManager (4.3),
    asked for a project when none is resolved yet; [r] is what the pool
    answers if it is asked.  The caller is the lifecycle on its way to
    Up, so nothing happens once teardown was requested. *)
Definition Resolve (cfg : Config) (r : AcquireResult) (s : State) : State :=
  if closed s then s else
  match resolvedProject s with
  | Some _ => s
  | None =>
      if negb (cfg_project cfg =? "")%string then
        set_resolvedProject (cfg_project cfg) s
      else
        let s := emit [EvAcquire (cfg_acquireTimeout cfg) r] s in
        match r with
        | Granted l =>
            let s := set_resolvedProject (lease_project l)
                       (set_lease (Some l) s) in
            if (cfg_heartbeatInterval cfg =? 0)%Z then s
            else emit [EvLoopStart] (set_loop LoopRunning s)
        | TimeoutError | PoolError => s
        end
  end.

(** Modelled from the spec: one tick of the HeartbeatLoop (4.2).  The
    loop ticks as long as it runs, also between the stop signal and its
    exit; a lost lease is reported and ends the loop. *)
Definition Tick (r : HeartbeatResult) (s : State) : State :=
  match loop s, lease s with
  | LoopRunning, Some l =>
      let s := emit [EvHeartbeat l r] s in
      match r with
      | HeartbeatOk => s
      | LeaseLostError =>
          emit [EvLoopExit] (set_loop LoopExited (set_leaseLost s))
      end
  | _, _ => s
  end.

(** Modelled from the spec: the loop sees its cancellation signal and
    exits (4.2). *)
Definition LoopExit (s : State) : State :=
  match loop s with
  | LoopRunning =>
      if stopSignal s then emit [EvLoopExit] (set_loop LoopExited s)
      else s
  | NoLoop | LoopExited => s
  end.

(** Modelled from the spec: the second half of [Teardown] (4.3, step 3):
    release the lease if one is recorded, and return; [r] is what the
    pool answers, a warning being logged and nothing more. *)
Definition finishTeardown (r : ReleaseResult) (s : State) : State :=
  let s :=
    match lease s with
    | Some l => set_lease None (emit [EvRelease l r] s)
    | None => s
    end in
  emit [EvTeardownReturn] (set_joining false s).

(** Modelled from the spec: a call of [Teardown] (4.3, step 3): if a
    HeartbeatLoop is running, signal it and wait for its exit; otherwise
    go on to the release at once.  The lifecycle is sequential, so no
    call is made while an earlier one still waits. *)
Definition Teardown (r : ReleaseResult) (s : State) : State :=
  if joining s then s else
  let s := emit [EvTeardownCall] (set_closed s) in
  match loop s with
  | LoopRunning => emit [EvStopSignal] (set_joining true (set_stopSignal s))
  | NoLoop | LoopExited => finishTeardown r s
  end.

(** Modelled from the spec: the waiting [Teardown] goes on once the loop
    has exited (4.2: the stop is synchronous for the caller). *)
Definition Joined (r : ReleaseResult) (s : State) : State :=
  if joining s then
    match loop s with
    | LoopRunning => s
    | NoLoop | LoopExited => finishTeardown r s
    end
  else s.

(** Modelled from the spec: what can happen next in a run (section 5:
    one background loop beside the sequential lifecycle): a move of the
    lifecycle or of the heartbeat loop, with the pool's answer where one
    is needed. *)
Inductive Action :=
| ActResolve (r : AcquireResult)
| ActTick (r : HeartbeatResult)
| ActLoopExit
| ActTeardown (r : ReleaseResult)
| ActJoined (r : ReleaseResult).

Definition step (cfg : Config) (a : Action) (s : State) : State :=
  match a with
  | ActResolve r => Resolve cfg r s
  | ActTick r => Tick r s
  | ActLoopExit => LoopExit s
  | ActTeardown r => Teardown r s
  | ActJoined r => Joined r s
  end.

(** Modelled from the spec: a run is any interleaving of the moves,
    from a given state; a move that cannot be made in a state leaves it
    as it is. *)
Definition run (cfg : Config) (sch : list Action) (s : State) : State :=
  fold_left (fun st a => step cfg a st) sch s.

(** *** Observations on a trace *)

Definition is_grant (e : Event) : bool :=
  match e with EvAcquire _ (Granted _) => true | _ => false end.

Definition is_acquire (e : Event) : bool :=
  match e with EvAcquire _ _ => true | _ => false end.

Definition is_heartbeat (e : Event) : bool :=
  match e with EvHeartbeat _ _ => true | _ => false end.

Definition is_release (e : Event) : bool :=
  match e with EvRelease _ _ => true | _ => false end.

Definition is_return (e : Event) : bool :=
  match e with EvTeardownReturn => true | _ => false end.

Definition is_loop_start (e : Event) : bool :=
  match e with EvLoopStart => true | _ => false end.

Definition is_loop_exit (e : Event) : bool :=
  match e with EvLoopExit => true | _ => false end.

(** A call to the pool service: Acquire, Heartbeat or Release. *)
Definition is_pool_call (e : Event) : bool :=
  is_acquire e || is_heartbeat e || is_release e.

Definition count (p : Event -> bool) (t : list Event) : nat :=
  List.length (filter p t).

(** *** What a run has to satisfy *)

(** What holds of the events [pre] that came before an event [e]:
    an Acquire comes before any grant; a heartbeat and a Release come
    after the one granted Acquire, before any Release and before any
    [Teardown] has returned; a heartbeat comes from a loop that was
    started and has not exited; a Release comes when the loop, if there
    was one, has exited. *)
Definition placed (e : Event) (pre : list Event) : Prop :=
  match e with
  | EvAcquire _ _ =>
      count is_grant pre = 0 /\ count is_release pre = 0 /\
      count is_return pre = 0
  | EvLoopStart =>
      count is_grant pre = 1 /\ count is_release pre = 0 /\
      count is_return pre = 0
  | EvHeartbeat _ _ =>
      count is_grant pre = 1 /\ count is_release pre = 0 /\
      count is_return pre = 0 /\
      count is_loop_start pre = 1 /\ count is_loop_exit pre = 0
  | EvRelease _ _ =>
      count is_grant pre = 1 /\ count is_release pre = 0 /\
      count is_return pre = 0 /\
      count is_loop_start pre = count is_loop_exit pre
  | _ => True
  end.

Definition ordered (t : list Event) : Prop :=
  forall pre e post, t = (pre ++ e :: post)%list -> placed e pre.

(** The invariant of a run. *)
Definition Inv (s : State) : Prop :=
  let t := trace s in
  (count is_grant t <= 1)%nat /\
  (forall l, lease s = Some l ->
     count is_grant t = 1 /\ count is_release t = 0 /\
     count is_return t = 0) /\
  (lease s = None ->
     count is_release t = count is_grant t /\ loop s <> LoopRunning) /\
  (resolvedProject s = None -> count is_grant t = 0 /\ loop s = NoLoop) /\
  match loop s with
  | NoLoop => count is_loop_start t = 0 /\ count is_loop_exit t = 0
  | LoopRunning => count is_loop_start t = 1 /\ count is_loop_exit t = 0
  | LoopExited => count is_loop_start t = 1 /\ count is_loop_exit t = 1
  end /\
  (joining s = true -> stopSignal s = true /\ closed s = true) /\
  (closed s = false -> count is_return t = 0) /\
  ordered t.

(** With an explicit project, a run never has a lease or a loop, and its
    trace holds no pool call. *)
Definition InvExplicit (s : State) : Prop :=
  lease s = None /\ loop s = NoLoop /\ joining s = false /\
  count is_pool_call (trace s) = 0.

End LeasedResource.

(** ** Concrete hosts and inputs used to exercise the statements *)

Module Samples.

Definition join2 (a b : string) : string := a ++ "/" ++ b.

Definition host : Gce.Host :=
  {| Gce.filepath_Join := join2;
     Gce.artifacts_BaseDir := "/workspace/_artifacts";
     Gce.gpflag_Parse := fun _ => inl ["gcp-project"; "num-nodes"];
     Gce.goflag_CommandLine := ["v"] |}.

Definition opts : Options :=
  {| RunID := "09a2565a-7ac6-11eb-a603-2218f636630c";
     RunDir := "/workspace/_rundir/09a2565a";
     ShouldBuild := true; ShouldUp := true;
     ShouldDown := true; ShouldTest := false |}.

(** Same run identifier, different run directory and phases. *)
Definition opts' : Options :=
  {| RunID := "09a2565a-7ac6-11eb-a603-2218f636630c";
     RunDir := "/tmp/elsewhere";
     ShouldBuild := false; ShouldUp := true;
     ShouldDown := false; ShouldTest := true |}.

Definition deployer : Gce.Deployer := Gce.New_literal host opts.

Definition flags : FlagSet := ["gcp-project"; "num-nodes"; "v"].

(** The kubeconfig is there, but its directory may not be searched. *)
Definition fs_unsearchable : Os.FileSys :=
  fun _ => {| Os.present := true; Os.fault := Some Os.NoSearchPermission |}.

Definition build_host (fails : bool) : NodeImageBuild.Host :=
  {| NodeImageBuild.kindDefaultBuiltImageName := "kindest/node:latest";
     NodeImageBuild.os_Environ := ["HOME=/root"];
     NodeImageBuild.process_ExecJUnit := fun _ _ _ =>
       if fails then Some "exit status 1" else None |}.

Definition build_deployer (image : string) (build : bool) : NodeImageBuild.Deployer :=
  {| NodeImageBuild.commonOptions :=
       {| RunID := "09a2565a"; RunDir := "/rundir"; ShouldBuild := build;
          ShouldUp := true; ShouldDown := true; ShouldTest := false |};
     NodeImageBuild.BuildType := "docker"; NodeImageBuild.KubeRoot := ""; NodeImageBuild.NodeImage := image |}.

(** The deployer after [--gcp-project] was parsed into its field. *)
Definition with_GCPProject (p : string) (d : Gce.Deployer) : Gce.Deployer :=
  Gce.mkDeployer
    (Gce.commonOptions d) (Gce.BuildOptions_ d) (Gce.doInit d)
    (Gce.kubeconfigPath d) (Gce.kubectlPath d) (Gce.logsDir d)
    (Gce.boskos d) (Gce.boskosHeartbeatClose d) (Gce.instancePrefix d)
    (Gce.network d) (Gce.Env d) (Gce.BoskosAcquireTimeoutSeconds d)
    (Gce.BoskosHeartbeatIntervalSeconds d) (Gce.RepoRoot d) p
    (Gce.GCPZone d) (Gce.EnableComputeAPI d) (Gce.OverwriteLogsDir d)
    (Gce.BoskosLocation d) (Gce.LegacyMode d) (Gce.NumNodes d)
    (Gce.EnableCacheMutationDetector d) (Gce.RuntimeConfig d)
    (Gce.EnablePodSecurityPolicy d) (Gce.CreateCustomNetwork d)
    (Gce.NodeScopes d) (Gce.NodeServiceAccount d) (Gce.CloudProvider d)
    (Gce.FeatureGates d) (Gce.MasterSize d) (Gce.NodeSize d)
    (Gce.IngressGCEImage d).

Definition deployer_explicit : Gce.Deployer :=
  with_GCPProject "my-proj" deployer.

Definition pooled_lease : LeasedResource.Lease :=
  {| LeasedResource.lease_pool := "gce-project";
     LeasedResource.lease_project := "k8s-boskos-gce-project-07";
     LeasedResource.lease_owner := "kubetest2" |}.

(** A run on the pool: acquire, one heartbeat, a [Teardown] during
    which one more heartbeat is sent before the loop exits, and a
    second [Teardown]. *)
Definition pooled_run : list LeasedResource.Action :=
  [LeasedResource.ActResolve (LeasedResource.Granted pooled_lease);
   LeasedResource.ActTick LeasedResource.HeartbeatOk;
   LeasedResource.ActTeardown LeasedResource.ReleaseOk;
   LeasedResource.ActTick LeasedResource.HeartbeatOk;
   LeasedResource.ActLoopExit;
   LeasedResource.ActJoined LeasedResource.ReleaseOk;
   LeasedResource.ActTeardown LeasedResource.ReleaseOk].

Definition pooled_trace : list LeasedResource.Event :=
  [LeasedResource.EvAcquire 300 (LeasedResource.Granted pooled_lease);
   LeasedResource.EvLoopStart;
   LeasedResource.EvHeartbeat pooled_lease LeasedResource.HeartbeatOk;
   LeasedResource.EvTeardownCall;
   LeasedResource.EvStopSignal;
   LeasedResource.EvHeartbeat pooled_lease LeasedResource.HeartbeatOk;
   LeasedResource.EvLoopExit;
   LeasedResource.EvRelease pooled_lease LeasedResource.ReleaseOk;
   LeasedResource.EvTeardownReturn;
   LeasedResource.EvTeardownCall;
   LeasedResource.EvTeardownReturn].

End Samples.

(** ** Further file systems and deployers for the statements of Part II *)

Module MoreSamples.

(** The kubeconfig has been written and can be read. *)
Definition fs_present : Os.FileSys :=
  fun _ => {| Os.present := true; Os.fault := None |}.

(** Nothing has been written yet. *)
Definition fs_empty : Os.FileSys :=
  fun _ => {| Os.present := false; Os.fault := None |}.

(** Other options and another default image, for the same build type,
    source root and explicit image as [Samples.build_deployer]. *)
Definition other_build_host : NodeImageBuild.Host :=
  {| NodeImageBuild.kindDefaultBuiltImageName := "kindest/node:other";
     NodeImageBuild.os_Environ := ["HOME=/root"];
     NodeImageBuild.process_ExecJUnit := fun _ _ _ => None |}.

Definition other_build_deployer (image : string) : NodeImageBuild.Deployer :=
  {| NodeImageBuild.commonOptions :=
       {| RunID := "ffffffff"; RunDir := "/elsewhere"; ShouldBuild := false;
          ShouldUp := false; ShouldDown := false; ShouldTest := true |};
     NodeImageBuild.BuildType := "docker";
     NodeImageBuild.KubeRoot := "";
     NodeImageBuild.NodeImage := image |}.

End MoreSamples.

(** * Part II: properties *)

(** ** Go strings *)

Module GoStringFacts.

Lemma length_app (s t : string) :
  String.length (s ++ t) = String.length s + String.length t.
Proof. induction s as [|c s IH]; simpl; [reflexivity | now rewrite IH]. Qed.

Lemma length_substring_0 (n : nat) (s : string) :
  String.length (substring 0 n s) = Nat.min n (String.length s).
Proof.
  revert n; induction s as [|c s IH]; intros [|n]; simpl; try reflexivity.
  now rewrite IH.
Qed.

Lemma prefix_substring_0 (n : nat) (s : string) :
  prefix (substring 0 n s) s = true.
Proof.
  revert n; induction s as [|c s IH]; intros [|n]; simpl; try reflexivity.
  destruct (ascii_dec c c) as [_|Hne]; [apply IH | now elim Hne].
Qed.

Lemma prefix_refl (s : string) : prefix s s = true.
Proof.
  induction s as [|c s IH]; simpl; [reflexivity|].
  destruct (ascii_dec c c) as [_|Hne]; [exact IH | now elim Hne].
Qed.

Lemma substring_0_all (n : nat) (s : string) :
  String.length s <= n -> substring 0 n s = s.
Proof.
  revert n; induction s as [|c s IH]; intros [|n] H; simpl in *;
    try reflexivity; try lia.
  f_equal; apply IH; lia.
Qed.

End GoStringFacts.

(** ** [pseudoUniqueSubstring] and [New] *)

Module GceFacts.
Import Gce GoStringFacts.

Lemma New_host_opts :
  New Samples.host Samples.opts = Returned (Samples.deployer, Samples.flags).
Proof. reflexivity. Qed.

Lemma New_inv h opts d fs :
  New h opts = Returned (d, fs) -> d = New_literal h opts.
Proof.
  unfold New. destruct (gpflag_Parse h (New_literal h opts)); intros H;
    now inversion H.
Qed.

(** [New] returns whenever the flag set of the struct can be built. *)
Lemma New_returns h opts fs :
  gpflag_Parse h (New_literal h opts) = inl fs ->
  New h opts = Returned (New_literal h opts, (fs ++ goflag_CommandLine h)%list).
Proof. unfold New. now intros ->. Qed.

Lemma pseudoUniqueSubstring_length s :
  String.length (pseudoUniqueSubstring s) = Nat.min (String.length s) 13.
Proof.
  unfold pseudoUniqueSubstring, maxResourceNamePrefixLength, GoString.slice_to.
  destruct (Nat.leb_spec (String.length s) 13).
  - lia.
  - rewrite length_substring_0. lia.
Qed.

Lemma pseudoUniqueSubstring_prefix s :
  prefix (pseudoUniqueSubstring s) s = true.
Proof.
  unfold pseudoUniqueSubstring, GoString.slice_to.
  destruct (String.length s <=? maxResourceNamePrefixLength)%nat.
  - apply prefix_refl.
  - apply prefix_substring_0.
Qed.

Lemma pseudoUniqueSubstring_short s :
  String.length s <= 13 -> pseudoUniqueSubstring s = s.
Proof.
  intros H. unfold pseudoUniqueSubstring, maxResourceNamePrefixLength.
  now apply Nat.leb_le in H as ->.
Qed.

(** C2: the deployer that [New] returns has
    [BoskosAcquireTimeoutSeconds = 300] and
    [BoskosHeartbeatIntervalSeconds = 300], whatever the options. *)
Theorem New_boskos_defaults h opts d fs :
  New h opts = Returned (d, fs) ->
  BoskosAcquireTimeoutSeconds d = 300%Z /\
  BoskosHeartbeatIntervalSeconds d = 300%Z.
Proof. intros H. apply New_inv in H. subst d. split; reflexivity. Qed.

Lemma New_boskos_defaults_witness :
  New Samples.host Samples.opts = Returned (Samples.deployer, Samples.flags) /\
  BoskosAcquireTimeoutSeconds Samples.deployer = 300%Z /\
  BoskosHeartbeatIntervalSeconds Samples.deployer = 300%Z.
Proof.
  split; [reflexivity|].
  apply (New_boskos_defaults Samples.host Samples.opts Samples.deployer
           Samples.flags).
  reflexivity.
Defined.

(** C8: for every string [s], [pseudoUniqueSubstring s] is a prefix of
    [s] of length [min (len s) 13], and applying the function twice is
    the same as applying it once. *)
Theorem pseudoUniqueSubstring_prefix_idempotent (s : string) :
  prefix (pseudoUniqueSubstring s) s = true /\
  String.length (pseudoUniqueSubstring s) = Nat.min (String.length s) 13 /\
  pseudoUniqueSubstring (pseudoUniqueSubstring s) = pseudoUniqueSubstring s.
Proof.
  split; [apply pseudoUniqueSubstring_prefix|].
  split; [apply pseudoUniqueSubstring_length|].
  apply pseudoUniqueSubstring_short.
  rewrite pseudoUniqueSubstring_length. lia.
Qed.

(** C3: for every run identifier, the instance prefix and the network
    name of the deployer that [New] returns start with a letter and are
    at most [4 + 13 = 17] bytes long, the fragment taken from the run
    identifier being at most 13 bytes long. *)
Theorem New_names_wellformed h opts d fs :
  New h opts = Returned (d, fs) ->
  String.length (pseudoUniqueSubstring (RunID opts)) <= 13 /\
  GoString.starts_with_letter (instancePrefix d) = true /\
  String.length (instancePrefix d) <= 4 + 13 /\
  GoString.starts_with_letter (network d) = true /\
  String.length (network d) <= 4 + 13.
Proof.
  intros H. apply New_inv in H. subst d.
  pose proof (pseudoUniqueSubstring_length (RunID opts)) as Hlen.
  cbn [New_literal instancePrefix network].
  rewrite length_app. cbn [String.length].
  repeat split; try reflexivity; lia.
Qed.

Lemma New_names_wellformed_witness :
  New Samples.host Samples.opts = Returned (Samples.deployer, Samples.flags) /\
  String.length (pseudoUniqueSubstring (RunID Samples.opts)) <= 13 /\
  GoString.starts_with_letter (instancePrefix Samples.deployer) = true /\
  String.length (instancePrefix Samples.deployer) <= 4 + 13 /\
  GoString.starts_with_letter (network Samples.deployer) = true /\
  String.length (network Samples.deployer) <= 4 + 13.
Proof.
  split; [reflexivity|].
  apply (New_names_wellformed Samples.host Samples.opts Samples.deployer
           Samples.flags).
  reflexivity.
Defined.

(** C4: two calls of [New] whose options carry the same run identifier
    give deployers with the same instance prefix and the same network
    name. *)
Theorem New_names_deterministic h1 h2 o1 o2 d1 d2 fs1 fs2 :
  New h1 o1 = Returned (d1, fs1) ->
  New h2 o2 = Returned (d2, fs2) ->
  RunID o1 = RunID o2 ->
  instancePrefix d1 = instancePrefix d2 /\ network d1 = network d2.
Proof.
  intros H1 H2 Hid. apply New_inv in H1, H2. subst d1 d2.
  cbn [New_literal instancePrefix network]. now rewrite Hid.
Qed.

Lemma New_names_deterministic_witness :
  RunID Samples.opts = RunID Samples.opts' /\
  instancePrefix Samples.deployer
    = instancePrefix (New_literal Samples.host Samples.opts') /\
  network Samples.deployer
    = network (New_literal Samples.host Samples.opts').
Proof.
  split; [reflexivity|].
  apply (New_names_deterministic Samples.host Samples.host
           Samples.opts Samples.opts' _ _ Samples.flags Samples.flags);
    reflexivity.
Defined.

End GceFacts.

(** ** [Kubeconfig] and the methods of the deployer *)

Module KubeconfigFacts.
Import Gce GceKubeconfig.

Example pseudoUniqueSubstring_uuid :
  pseudoUniqueSubstring "09a2565a-7ac6-11eb-a603-2218f636630c"
  = "09a2565a-7ac6".
Proof. reflexivity. Qed.

Example instancePrefix_sample :
  instancePrefix Samples.deployer = "kt2-09a2565a-7ac6".
Proof. reflexivity. Qed.

Lemma Kubeconfig_deployer fs d : fst (Kubeconfig fs d) = d.
Proof.
  unfold Kubeconfig.
  destruct (Os.IsNotExist _); [reflexivity|].
  destruct (Os.Stat _ _); reflexivity.
Qed.

Lemma invoke_deployer GitTag fs m d : fst (invoke GitTag fs m d) = d.
Proof.
  destruct m; cbn [invoke fst]; try reflexivity.
  pose proof (Kubeconfig_deployer fs d) as H.
  destruct (Kubeconfig fs d) as [d' [s e]]. exact H.
Qed.

Lemma invoke_all_deployer GitTag calls d : invoke_all GitTag calls d = d.
Proof.
  revert d; induction calls as [|[fs m] rest IH]; intros d; cbn [invoke_all].
  - reflexivity.
  - now rewrite invoke_deployer.
Qed.

Lemma Stat_ok_iff fs name :
  Os.Stat fs name = None <->
  Os.present (fs name) = true /\ Os.fault (fs name) = None.
Proof.
  unfold Os.Stat.
  destruct (Os.fault (fs name)) as [f|], (Os.present (fs name));
    split; intros H; try discriminate; try tauto;
    destruct H; discriminate.
Qed.

(** C9: the deployer that [New] returns has its instance prefix equal
    to its network name, and the equality lasts: whatever methods of
    [deployer.go] are called on it afterwards, both fields keep the
    values [New] gave them. *)
Theorem New_instancePrefix_eq_network h opts d fs :
  New h opts = Returned (d, fs) ->
  instancePrefix d = network d /\
  forall GitTag calls,
    let d' := invoke_all GitTag calls d in
    instancePrefix d' = instancePrefix d /\
    network d' = network d /\
    instancePrefix d' = network d'.
Proof.
  intros H. apply GceFacts.New_inv in H. subst d.
  split; [reflexivity|].
  intros GitTag calls d'. subst d'.
  rewrite invoke_all_deployer. repeat split; reflexivity.
Qed.

Lemma New_instancePrefix_eq_network_witness :
  New Samples.host Samples.opts = Returned (Samples.deployer, Samples.flags) /\
  instancePrefix Samples.deployer = network Samples.deployer /\
  forall GitTag calls,
    let d' := invoke_all GitTag calls Samples.deployer in
    instancePrefix d' = instancePrefix Samples.deployer /\
    network d' = network Samples.deployer /\
    instancePrefix d' = network d'.
Proof.
  split; [reflexivity|].
  apply (New_instancePrefix_eq_network Samples.host Samples.opts
           Samples.deployer Samples.flags).
  reflexivity.
Defined.

(** C10, as stated, fails: with the kubeconfig file in place but in a
    directory that may not be searched, [os.Stat] fails with a
    permission error, and [Kubeconfig] returns the empty string and an
    error although a file exists at the path. *)
Lemma Kubeconfig_existing_file_error :
  Os.file_exists Samples.fs_unsearchable (kubeconfigPath Samples.deployer)
    = true /\
  snd (Kubeconfig Samples.fs_unsearchable Samples.deployer)
    = ("",
       Some "unknown error when checking for kubeconfig at /workspace/_rundir/09a2565a/kubetest2-kubeconfig: stat /workspace/_rundir/09a2565a/kubetest2-kubeconfig: permission denied") /\
  ~ (snd (Kubeconfig Samples.fs_unsearchable Samples.deployer)
       = (kubeconfigPath Samples.deployer, None)
     <-> Os.file_exists Samples.fs_unsearchable
           (kubeconfigPath Samples.deployer) = true).
Proof.
  split; [reflexivity|]. split; [reflexivity|].
  intros [_ H]. specialize (H eq_refl). discriminate H.
Qed.

(** C10, amended: [Kubeconfig] returns the configured path with no
    error if and only if [os.Stat] succeeds on it, that is, a file
    exists there and looking it up does not fail; whenever [os.Stat]
    fails, and so whenever no file exists there, it returns the empty
    string together with an error; the deployer is left as it was. *)
Theorem Kubeconfig_spec (fs : Os.FileSys) (d : Deployer) :
  (snd (Kubeconfig fs d) = (kubeconfigPath d, None)
   <-> Os.Stat fs (kubeconfigPath d) = None) /\
  (Os.Stat fs (kubeconfigPath d) = None
   <-> Os.file_exists fs (kubeconfigPath d) = true
       /\ Os.fault (fs (kubeconfigPath d)) = None) /\
  (Os.Stat fs (kubeconfigPath d) <> None ->
   exists msg, snd (Kubeconfig fs d) = ("", Some msg)) /\
  (Os.file_exists fs (kubeconfigPath d) = false ->
   exists msg, snd (Kubeconfig fs d) = ("", Some msg)) /\
  fst (Kubeconfig fs d) = d.
Proof.
  pose proof (Stat_ok_iff fs (kubeconfigPath d)) as Hstat.
  assert (Herr : Os.Stat fs (kubeconfigPath d) <> None ->
                 exists msg, snd (Kubeconfig fs d) = ("", Some msg)).
  { unfold Kubeconfig.
    destruct (Os.Stat fs (kubeconfigPath d)) as [e|]; [|congruence].
    intros _. destruct (Os.IsNotExist (Some e)); cbn [snd]; eauto. }
  split; [|split; [exact Hstat|split; [exact Herr|split]]].
  - split.
    + intros Hok.
      destruct (Os.Stat fs (kubeconfigPath d)) as [e|] eqn:Hs; [|reflexivity].
      destruct Herr as [msg Hmsg]; [discriminate|].
      rewrite Hmsg in Hok. discriminate Hok.
    + intros Hs. unfold Kubeconfig. rewrite Hs. reflexivity.
  - intros Hno. apply Herr. intros Hs. apply Hstat in Hs as [Hp _].
    unfold Os.file_exists in Hno. congruence.
  - apply Kubeconfig_deployer.
Qed.

End KubeconfigFacts.

(** ** [Build] *)

Module BuildFacts.
Import NodeImageBuild.

Example Build_explicit_image :
  Build (Samples.build_host false) (Samples.build_deployer "my/node:v1" true)
  = ([KlogInfof "Build(): building kind node image...
";
      ExecJUnit "kind"
        ["build"; "node-image"; "--type"; "docker"; "--image"; "my/node:v1"]
        ["HOME=/root"];
      StoreCommonBinaries "" "/rundir"], None).
Proof. reflexivity. Qed.

Example Build_default_image_failing :
  Build (Samples.build_host true) (Samples.build_deployer "" true)
  = ([KlogInfof "Build(): building kind node image...
";
      ExecJUnit "kind"
        ["build"; "node-image"; "--type"; "docker"; "--image";
         "kindest/node:latest"]
        ["HOME=/root"]], Some "exit status 1").
Proof. reflexivity. Qed.

Lemma Build_args_cases h d :
  Build_args h d =
  (base_args d ++
     (if negb (NodeImage d =? "")%string then ["--image"; NodeImage d]
      else if ShouldBuild (commonOptions d)
           then ["--image"; kindDefaultBuiltImageName h]
           else []))%list.
Proof.
  unfold Build_args, base_args.
  destruct (BuildType d =? "")%string, (KubeRoot d =? "")%string,
    (NodeImage d =? "")%string, (ShouldBuild (commonOptions d));
    reflexivity.
Qed.

(** C7: [Build] invokes the external builder once, as [kind] with the
    arguments for the build type and the source root followed by the
    image: the explicitly configured image name when one is set; the
    default built image name exactly when none is set and a build was
    requested; no image otherwise.  [Build] returns an error exactly
    when that invocation fails, and the error is the invocation's. *)
Theorem Build_spec (h : Host) (d : Deployer) :
  let env := os_Environ h in
  let image :=
    if (NodeImage d =? "")%string then
      if ShouldBuild (commonOptions d)
      then ["--image"; kindDefaultBuiltImageName h] else []
    else ["--image"; NodeImage d] in
  let args := (base_args d ++ image)%list in
  filter is_exec (fst (Build h d)) = [ExecJUnit "kind" args env] /\
  snd (Build h d) = process_ExecJUnit h "kind" args env /\
  (snd (Build h d) <> None <-> process_ExecJUnit h "kind" args env <> None).
Proof.
  intros env image args.
  assert (Hargs : Build_args h d = args).
  { rewrite Build_args_cases. subst args image.
    destruct (NodeImage d =? "")%string; reflexivity. }
  unfold Build. rewrite Hargs. fold env.
  destruct (process_ExecJUnit h "kind" args env) as [err|];
    cbn [fst snd filter is_exec app]; repeat split; tauto.
Qed.

End BuildFacts.

(** ** The leased-resource manager: what every run satisfies *)

Module LeasedResourceFacts.
Import LeasedResource.
Local Open Scope list_scope.
Local Open Scope nat_scope.

Lemma count_app p t u : count p (t ++ u) = count p t + count p u.
Proof. unfold count. now rewrite filter_app, length_app. Qed.

Lemma count_nil p : count p [] = 0.
Proof. reflexivity. Qed.

Lemma count_cons p e t :
  count p (e :: t) = (if p e then 1 else 0) + count p t.
Proof. unfold count. cbn [filter]. now destruct (p e). Qed.

Lemma count_pos_split p l :
  1 <= count p l -> exists l1 e l2, l = l1 ++ e :: l2 /\ p e = true.
Proof.
  induction l as [|x l IH]; rewrite ?count_nil, ?count_cons; [lia|].
  destruct (p x) eqn:Hx; intros H.
  - now exists [], x, l.
  - destruct IH as (l1 & e & l2 & -> & He); [lia|].
    now exists (x :: l1), e, l2.
Qed.

Lemma ordered_nil : ordered [].
Proof. intros [|x pre] e post H; discriminate H. Qed.

Lemma ordered_snoc t e :
  ordered t -> placed e t -> ordered (t ++ [e]).
Proof.
  intros Ht He pre e' post.
  destruct post as [|x post'] using rev_ind.
  - intros H. apply app_inj_tail in H as [-> ->]. exact He.
  - clear IHpost'. intros H.
    change (pre ++ e' :: post' ++ [x]) with (pre ++ (e' :: post') ++ [x]) in H.
    rewrite app_assoc in H. apply app_inj_tail in H as [-> _].
    now apply (Ht pre e' post').
Qed.

Lemma run_snoc cfg sch a s :
  run cfg (sch ++ [a]) s = step cfg a (run cfg sch s).
Proof. unfold run. now rewrite fold_left_app. Qed.

Ltac counts :=
  rewrite ?count_app, ?count_cons, ?count_nil;
  cbn [is_grant is_release is_return is_loop_start is_loop_exit
       is_heartbeat is_acquire].

Ltac open_inv :=
  cbn [trace lease loop resolvedProject joining stopSignal closed leaseLost
       emit set_resolvedProject set_lease set_loop set_stopSignal
       set_joining set_closed set_leaseLost].

Ltac close_inv :=
  repeat split; intros; auto; try discriminate; try congruence; try lia;
  try (rewrite ?app_assoc; repeat apply ordered_snoc; try assumption;
       cbn [placed]; counts; lia).

Lemma Inv_init : Inv init.
Proof.
  unfold Inv, init; open_inv.
  repeat split; try discriminate; try (cbn; lia). apply ordered_nil.
Qed.

Lemma Inv_step cfg a s : Inv s -> Inv (step cfg a s).
Proof.
  intros HI.
  pose proof HI as (Hg & Hsome & Hnone & Hres & Hloop & Hjoin & Hcl & Hord).
  destruct (resolvedProject s) as [p|] eqn:Er;
    destruct (lease s) as [l|] eqn:El;
    destruct (loop s) eqn:Eloop;
    destruct (joining s) eqn:Ej;
    destruct (closed s) eqn:Ec;
    try (destruct (Hsome _ eq_refl) as (Hg1 & Hr0 & Ht0));
    try (destruct (Hnone eq_refl) as (Hrg & Hnr));
    try (destruct (Hres eq_refl) as (Hg0 & Hnl));
    try (destruct (Hjoin eq_refl) as (Hst & Hcj));
    try specialize (Hcl eq_refl);
    destruct Hloop as [Hls Hle];
    try congruence; try lia.
  all: destruct a as [r|r| |r|r]; cbn [step];
    unfold Resolve, Tick, LoopExit, Teardown, Joined, finishTeardown;
    open_inv; rewrite ?Er, ?El, ?Eloop, ?Ej, ?Ec; try exact HI.
  all: try destruct (negb (cfg_project cfg =? "")%string).
  all: try destruct r.
  all: try destruct (cfg_heartbeatInterval cfg =? 0)%Z.
  all: try destruct (stopSignal s) eqn:Es; try exact HI.
  all: unfold Inv; open_inv; rewrite ?Er, ?El, ?Eloop, ?Ej, ?Ec; open_inv;
    counts; close_inv.
Qed.

Lemma Inv_run cfg sch : Inv (run cfg sch init).
Proof.
  induction sch as [|a sch IH] using rev_ind.
  - apply Inv_init.
  - rewrite run_snoc. now apply Inv_step.
Qed.

(** Once a project is resolved it stays the resolved project. *)
Lemma resolvedProject_step cfg a s p :
  resolvedProject s = Some p -> resolvedProject (step cfg a s) = Some p.
Proof.
  intros H. destruct a as [r|r| |r|r]; cbn [step];
    unfold Resolve, Tick, LoopExit, Teardown, Joined, finishTeardown;
    open_inv; rewrite ?H;
    repeat match goal with
      | |- context [match ?x with _ => _ end] => destruct x
      end; open_inv; assumption.
Qed.

Lemma resolvedProject_run cfg sch s p :
  resolvedProject s = Some p -> resolvedProject (run cfg sch s) = Some p.
Proof.
  revert s; induction sch as [|a sch IH]; intros s H; [exact H|].
  cbn [run fold_left]. apply IH. now apply resolvedProject_step.
Qed.

Lemma InvExplicit_step cfg a s :
  cfg_project cfg <> ""%string ->
  InvExplicit s -> InvExplicit (step cfg a s).
Proof.
  intros Hp (Hl & Hlo & Hj & Hc).
  apply String.eqb_neq in Hp.
  destruct a as [r|r| |r|r]; cbn [step];
    unfold Resolve, Tick, LoopExit, Teardown, Joined, finishTeardown;
    open_inv; rewrite ?Hl, ?Hlo, ?Hj, ?Hp; cbn [negb].
  - destruct (closed s), (resolvedProject s);
      unfold InvExplicit; open_inv; auto.
  - unfold InvExplicit; auto.
  - unfold InvExplicit; auto.
  - unfold InvExplicit; open_inv. rewrite !count_app, Hc. auto.
  - unfold InvExplicit; auto.
Qed.

Lemma InvExplicit_run cfg sch :
  cfg_project cfg <> ""%string -> InvExplicit (run cfg sch init).
Proof.
  intros Hp. induction sch as [|a sch IH] using rev_ind.
  - repeat split.
  - rewrite run_snoc. now apply InvExplicit_step.
Qed.

(** A [Teardown] on a manager that holds no lease and runs no loop only
    records its call and its return. *)
Lemma Teardown_noop r s :
  lease s = None -> loop s <> LoopRunning -> joining s = false ->
  Teardown r s = emit [EvTeardownCall; EvTeardownReturn]
                   (set_joining false (set_closed s)).
Proof.
  intros Hl Hlo Hj. unfold Teardown, finishTeardown, emit, set_joining, set_closed.
  open_inv. rewrite Hj, Hl.
  destruct (loop s); [|congruence|]; open_inv; now rewrite <- app_assoc.
Qed.

(** A [Teardown] comes back: called in any state of a run, it has
    returned, with the lease gone, as soon as the loop has taken its
    exit step. *)
Lemma Teardown_completes cfg sch r r' :
  let s := run cfg (sch ++ [ActTeardown r; ActLoopExit; ActJoined r']) init in
  joining s = false /\ lease s = None /\ closed s = true /\
  1 <= count is_return (trace s).
Proof.
  cbv zeta. unfold run. rewrite fold_left_app. fold (run cfg sch init).
  pose proof (Inv_run cfg sch) as (_ & _ & _ & _ & _ & Hjoin & _ & _).
  remember (run cfg sch init) as s eqn:Es. clear Es.
  cbn [fold_left step].
  unfold Teardown, LoopExit, Joined, finishTeardown.
  destruct (joining s) eqn:Ej;
    [destruct (Hjoin eq_refl) as [Hst Hcl]|];
    destruct (loop s) eqn:Eloop; destruct (lease s) eqn:El;
    repeat progress (open_inv; rewrite ?Ej, ?Eloop, ?El, ?Hst);
    rewrite ?count_app; repeat split; auto; cbn; lia.
Qed.

(** C1: in every run in which a lease was acquired and [Teardown] has
    returned [N >= 1] times, exactly one Release was issued to the pool;
    it was issued before any [Teardown] had returned, that is by the
    first one, and with the heartbeat loop, if one was started, already
    exited; and every pool call of the run was made before the first
    [Teardown] returned, so the later ones made none. *)
Theorem Teardown_releases_once cfg sch N :
  count is_grant (trace (run cfg sch init)) = 1 ->
  count is_return (trace (run cfg sch init)) = N ->
  1 <= N ->
  count is_release (trace (run cfg sch init)) = 1 /\
  forall pre e post,
    trace (run cfg sch init) = pre ++ e :: post ->
    (is_release e = true ->
       count is_return pre = 0 /\
       count is_loop_start pre = count is_loop_exit pre) /\
    (is_pool_call e = true ->
       count is_release pre = 0 /\ count is_return pre = 0).
Proof.
  intros Hg Hret HN.
  pose proof (Inv_run cfg sch) as (_ & Hsome & Hnone & _ & _ & _ & _ & Hord).
  split.
  - destruct (lease (run cfg sch init)) as [l|] eqn:El.
    + destruct (Hsome l eq_refl) as (_ & _ & H0). lia.
    + destruct (Hnone eq_refl) as (Hrg & _). lia.
  - intros pre e post Hdec. specialize (Hord pre e post Hdec).
    destruct e; cbn [placed] in Hord; split; intros He;
      try discriminate He; try tauto.
Qed.

Example pooled_run_trace :
  trace (run (config_of Samples.deployer) Samples.pooled_run init)
  = Samples.pooled_trace.
Proof. reflexivity. Qed.

Lemma Teardown_releases_once_witness :
  count is_grant
    (trace (run (config_of Samples.deployer) Samples.pooled_run init)) = 1 /\
  count is_return
    (trace (run (config_of Samples.deployer) Samples.pooled_run init)) = 2 /\
  1 <= 2 /\
  count is_release
    (trace (run (config_of Samples.deployer) Samples.pooled_run init)) = 1 /\
  forall pre e post,
    trace (run (config_of Samples.deployer) Samples.pooled_run init)
      = pre ++ e :: post ->
    (is_release e = true ->
       count is_return pre = 0 /\
       count is_loop_start pre = count is_loop_exit pre) /\
    (is_pool_call e = true ->
       count is_release pre = 0 /\ count is_return pre = 0).
Proof.
  split; [reflexivity|]. split; [reflexivity|].
  split; [apply le_S, le_n|].
  apply (Teardown_releases_once (config_of Samples.deployer)
           Samples.pooled_run 2);
    [reflexivity | reflexivity | apply le_S, le_n].
Defined.

(** C5: with an explicit project configured on the deployer, no run
    makes a pool call (Acquire, Heartbeat or Release), and once the
    lifecycle has asked for a project the resolved project is the
    configured one, whatever happens afterwards. *)
Theorem explicit_project_bypasses_pool (d : Gce.Deployer) :
  Gce.GCPProject d <> ""%string ->
  (forall sch,
     count is_pool_call (trace (run (config_of d) sch init)) = 0) /\
  (forall r sch,
     resolvedProject (run (config_of d) (ActResolve r :: sch) init)
     = Some (Gce.GCPProject d)).
Proof.
  intros Hp. split.
  - intros sch. now apply (InvExplicit_run (config_of d) sch).
  - intros r sch. cbn [run fold_left]. apply resolvedProject_run.
    cbn [step]. unfold Resolve. cbn [init closed resolvedProject].
    apply String.eqb_neq in Hp. cbn [config_of cfg_project].
    rewrite Hp. reflexivity.
Qed.

Lemma explicit_project_bypasses_pool_witness :
  Gce.GCPProject Samples.deployer_explicit <> ""%string /\
  (forall sch,
     count is_pool_call
       (trace (run (config_of Samples.deployer_explicit) sch init)) = 0) /\
  (forall r sch,
     resolvedProject
       (run (config_of Samples.deployer_explicit) (ActResolve r :: sch) init)
     = Some "my-proj"%string).
Proof.
  split; [discriminate|].
  apply (explicit_project_bypasses_pool Samples.deployer_explicit).
  discriminate.
Defined.

(** C6: in every run, a heartbeat is sent only after the one Acquire
    that succeeded, from a loop that was started and has not exited,
    before any Release and before any [Teardown] has returned; the loop
    is started only after the Acquire that succeeded; and a Release is
    issued only when the loop, if one was started, has exited. *)
Theorem heartbeats_within_lease cfg sch pre e post :
  trace (run cfg sch init) = pre ++ e :: post ->
  (is_heartbeat e = true ->
     count is_grant pre = 1 /\
     count is_loop_start pre = 1 /\ count is_loop_exit pre = 0 /\
     count is_release pre = 0 /\ count is_return pre = 0) /\
  (is_loop_start e = true ->
     count is_grant pre = 1 /\ count is_return pre = 0) /\
  (is_release e = true ->
     count is_loop_start pre = count is_loop_exit pre /\
     count is_heartbeat post = 0).
Proof.
  intros Hdec.
  pose proof (Inv_run cfg sch) as (_ & _ & _ & _ & _ & _ & _ & Hord).
  pose proof (Hord pre e post Hdec) as He.
  split; [|split]; intros Hk; destruct e; try discriminate Hk;
    cbn [placed] in He; try tauto.
  split; [tauto|].
  destruct (count is_heartbeat post) as [|n] eqn:Hn; [reflexivity|].
  exfalso.
  destruct (count_pos_split is_heartbeat post) as (p1 & e & p2 & -> & Hb);
    [lia|].
  rewrite app_comm_cons, app_assoc in Hdec.
  specialize (Hord _ _ _ Hdec).
  destruct e; try discriminate Hb. cbn [placed] in Hord.
  destruct Hord as (_ & Hrel & _). revert Hrel. counts. lia.
Qed.

Lemma heartbeats_within_lease_witness :
  let pre := firstn 5 Samples.pooled_trace in
  let e := EvHeartbeat Samples.pooled_lease HeartbeatOk in
  let post := skipn 6 Samples.pooled_trace in
  trace (run (config_of Samples.deployer) Samples.pooled_run init)
    = pre ++ e :: post /\
  (is_heartbeat e = true ->
     count is_grant pre = 1 /\
     count is_loop_start pre = 1 /\ count is_loop_exit pre = 0 /\
     count is_release pre = 0 /\ count is_return pre = 0) /\
  (is_loop_start e = true ->
     count is_grant pre = 1 /\ count is_return pre = 0) /\
  (is_release e = true ->
     count is_loop_start pre = count is_loop_exit pre /\
     count is_heartbeat post = 0).
Proof.
  intros pre e post. split; [reflexivity|].
  apply (heartbeats_within_lease (config_of Samples.deployer)
           Samples.pooled_run pre e post).
  reflexivity.
Defined.

End LeasedResourceFacts.

(** * Part III: further properties of the code *)

(** ** [pseudoUniqueSubstring], byte by byte *)

Module FragmentFacts.
Import Gce GoStringFacts.
Local Open Scope nat_scope.

Lemma pseudoUniqueSubstring_substring s :
  pseudoUniqueSubstring s = substring 0 13 s.
Proof.
  unfold pseudoUniqueSubstring, maxResourceNamePrefixLength, GoString.slice_to.
  destruct (Nat.leb_spec (String.length s) 13) as [H|H]; [|reflexivity].
  symmetry. now apply substring_0_all.
Qed.

Lemma substring_0_app p a :
  substring 0 (String.length p) (p ++ a) = p.
Proof.
  induction p as [|c p IH]; cbn [String.length append substring].
  - now destruct a.
  - now rewrite IH.
Qed.

Lemma substring_split n s :
  s = (substring 0 n s ++ substring n (String.length s - n) s)%string.
Proof.
  revert n; induction s as [|c s IH]; intros [|n];
    cbn [String.length substring append Nat.sub]; try reflexivity.
  - f_equal. symmetry. apply substring_0_all. lia.
  - f_equal. apply IH.
Qed.

(** X1: byte [i] of [pseudoUniqueSubstring s] is byte [i] of [s] for
    [i < 13], and there is no byte [i] for [i >= 13]. *)
Theorem pseudoUniqueSubstring_bytes (s : string) (i : nat) :
  String.get i (pseudoUniqueSubstring s)
  = if i <? 13 then String.get i s else None.
Proof.
  rewrite pseudoUniqueSubstring_substring.
  destruct (Nat.ltb_spec i 13) as [H|H].
  - rewrite (substring_correct1 s 0 13 i H). now rewrite Nat.add_0_r.
  - now apply substring_correct2.
Qed.

(** X2: nothing but the tail is dropped: [s] is
    [pseudoUniqueSubstring s] followed by the bytes of [s] from
    position 13 on. *)
Theorem pseudoUniqueSubstring_tail (s : string) :
  s = (pseudoUniqueSubstring s
         ++ substring 13 (String.length s - 13) s)%string.
Proof. rewrite pseudoUniqueSubstring_substring. apply substring_split. Qed.

(** X3: the fragment is empty exactly for the empty identifier. *)
Theorem pseudoUniqueSubstring_empty_iff (s : string) :
  pseudoUniqueSubstring s = ""%string <-> s = ""%string.
Proof.
  rewrite pseudoUniqueSubstring_substring.
  destruct s as [|c s]; cbn [substring]; split; intros H;
    try reflexivity; discriminate H.
Qed.

(** X4: identifiers that share their first 13 bytes share the fragment:
    for [p] of 13 bytes, [pseudoUniqueSubstring (p ++ a)] is [p],
    whatever follows. *)
Theorem pseudoUniqueSubstring_shared_prefix (p a b : string) :
  String.length p = 13 ->
  pseudoUniqueSubstring (p ++ a) = p /\
  pseudoUniqueSubstring (p ++ a) = pseudoUniqueSubstring (p ++ b).
Proof.
  intros H. rewrite !pseudoUniqueSubstring_substring, <- H.
  now rewrite !substring_0_app.
Qed.

Lemma pseudoUniqueSubstring_shared_prefix_witness :
  String.length "09a2565a-7ac6"%string = 13 /\
  pseudoUniqueSubstring ("09a2565a-7ac6" ++ "-11eb-a603-2218f636630c")
    = "09a2565a-7ac6"%string /\
  pseudoUniqueSubstring ("09a2565a-7ac6" ++ "-11eb-a603-2218f636630c")
    = pseudoUniqueSubstring ("09a2565a-7ac6" ++ "-22fc-b714-3329a747741d").
Proof.
  split; [reflexivity|].
  apply (pseudoUniqueSubstring_shared_prefix "09a2565a-7ac6"
           "-11eb-a603-2218f636630c" "-22fc-b714-3329a747741d").
  reflexivity.
Defined.

End FragmentFacts.

(** ** What [New] hands back *)

Module NewFacts.
Import Gce GoStringFacts.
Local Open Scope nat_scope.

Lemma kt2_cancel (a b : string) :
  ("kt2-" ++ a = "kt2-" ++ b)%string <-> a = b.
Proof.
  split; intros H; [|now rewrite H].
  cbn [append] in H. now inversion H.
Qed.

Lemma prefix_app (p x : string) : prefix p (p ++ x) = true.
Proof.
  induction p as [|c p IH]; cbn [append prefix].
  - now destruct x.
  - destruct (ascii_dec c c) as [_|Hne]; [exact IH | now elim Hne].
Qed.

(** X5: the names of two deployers from [New] are equal exactly when the
    run identifiers agree on their first 13 bytes: identifiers that
    differ there give different instance prefixes and networks. *)
Theorem New_names_equal_iff h1 h2 o1 o2 d1 d2 fs1 fs2 :
  New h1 o1 = Returned (d1, fs1) ->
  New h2 o2 = Returned (d2, fs2) ->
  (instancePrefix d1 = instancePrefix d2
   <-> substring 0 13 (RunID o1) = substring 0 13 (RunID o2)) /\
  (network d1 = network d2
   <-> substring 0 13 (RunID o1) = substring 0 13 (RunID o2)).
Proof.
  intros H1 H2. apply GceFacts.New_inv in H1, H2. subst d1 d2.
  cbn [New_literal instancePrefix network].
  rewrite kt2_cancel, !FragmentFacts.pseudoUniqueSubstring_substring.
  split; reflexivity.
Qed.

Lemma New_names_equal_iff_witness :
  New Samples.host Samples.opts
    = Returned (Samples.deployer, Samples.flags) /\
  New Samples.host Samples.opts'
    = Returned (New_literal Samples.host Samples.opts', Samples.flags) /\
  (instancePrefix Samples.deployer
     = instancePrefix (New_literal Samples.host Samples.opts')
   <-> substring 0 13 (RunID Samples.opts)
       = substring 0 13 (RunID Samples.opts')) /\
  (network Samples.deployer
     = network (New_literal Samples.host Samples.opts')
   <-> substring 0 13 (RunID Samples.opts)
       = substring 0 13 (RunID Samples.opts')).
Proof.
  split; [reflexivity|]. split; [reflexivity|].
  apply (New_names_equal_iff Samples.host Samples.host Samples.opts
           Samples.opts' _ _ Samples.flags Samples.flags); reflexivity.
Defined.

(** X6: both names are exactly [4 + min (len RunID) 13] bytes long and
    begin with [kt2-]; they are [kt2-] alone exactly when the run
    identifier is empty. *)
Theorem New_names_length h opts d fs :
  New h opts = Returned (d, fs) ->
  String.length (instancePrefix d) = 4 + Nat.min (String.length (RunID opts)) 13 /\
  String.length (network d) = 4 + Nat.min (String.length (RunID opts)) 13 /\
  prefix "kt2-" (instancePrefix d) = true /\
  prefix "kt2-" (network d) = true /\
  (instancePrefix d = "kt2-"%string <-> RunID opts = ""%string).
Proof.
  intros H. apply GceFacts.New_inv in H. subst d.
  cbn [New_literal instancePrefix network].
  rewrite length_app, GceFacts.pseudoUniqueSubstring_length.
  split; [reflexivity|]. split; [reflexivity|].
  split; [apply prefix_app|]. split; [apply prefix_app|].
  rewrite <- FragmentFacts.pseudoUniqueSubstring_empty_iff.
  apply (kt2_cancel (pseudoUniqueSubstring (RunID opts)) "").
Qed.

Lemma New_names_length_witness :
  New Samples.host Samples.opts
    = Returned (Samples.deployer, Samples.flags) /\
  String.length (instancePrefix Samples.deployer)
    = 4 + Nat.min (String.length (RunID Samples.opts)) 13 /\
  String.length (network Samples.deployer)
    = 4 + Nat.min (String.length (RunID Samples.opts)) 13 /\
  prefix "kt2-" (instancePrefix Samples.deployer) = true /\
  prefix "kt2-" (network Samples.deployer) = true /\
  (instancePrefix Samples.deployer = "kt2-"%string
   <-> RunID Samples.opts = ""%string).
Proof.
  split; [reflexivity|].
  apply (New_names_length Samples.host Samples.opts Samples.deployer
           Samples.flags).
  reflexivity.
Defined.


End NewFacts.

(** ** [Kubeconfig] on the deployer from [New], and its errors *)

Module KubeconfigMore.
Import Gce GceKubeconfig.

(** X8: on the deployer from [New], when [os.Stat] succeeds on the file
    [kubetest2-kubeconfig] in the run directory, [Kubeconfig] returns
    that path and no error, and the deployer as it was. *)
Theorem New_then_Kubeconfig h opts d fs (fsys : Os.FileSys) :
  New h opts = Returned (d, fs) ->
  Os.Stat fsys (filepath_Join h (RunDir opts) "kubetest2-kubeconfig") = None ->
  Kubeconfig fsys d
  = (d, (filepath_Join h (RunDir opts) "kubetest2-kubeconfig", None)).
Proof.
  intros H Hs. apply GceFacts.New_inv in H. subst d.
  unfold Kubeconfig. cbn [New_literal kubeconfigPath]. rewrite Hs.
  reflexivity.
Qed.

Lemma New_then_Kubeconfig_witness :
  New Samples.host Samples.opts
    = Returned (Samples.deployer, Samples.flags) /\
  Os.Stat MoreSamples.fs_present
    (filepath_Join Samples.host (RunDir Samples.opts) "kubetest2-kubeconfig")
    = None /\
  Kubeconfig MoreSamples.fs_present Samples.deployer
  = (Samples.deployer,
     ("/workspace/_rundir/09a2565a/kubetest2-kubeconfig", None)).
Proof.
  split; [reflexivity|]. split; [reflexivity|].
  apply (New_then_Kubeconfig Samples.host Samples.opts Samples.deployer
           Samples.flags MoreSamples.fs_present); reflexivity.
Defined.

(** X9: when [os.Stat] fails, [Kubeconfig] returns the empty string and
    an error whose text names the path: [kubeconfig does not exist at:]
    with the path when the error number is ENOENT, and otherwise
    [unknown error when checking for kubeconfig at] with the path and
    the text of the [stat] error, which names the path again and gives
    the reason. *)
Theorem Kubeconfig_error_text (fsys : Os.FileSys) (d : Deployer)
        (e : Os.PathError) :
  Os.Stat fsys (kubeconfigPath d) = Some e ->
  snd (Kubeconfig fsys d)
  = ("",
     Some match Os.pe_Err e with
          | Os.ENOENT => "kubeconfig does not exist at: " ++ kubeconfigPath d
          | _ =>
              "unknown error when checking for kubeconfig at "
                ++ kubeconfigPath d ++ ": stat " ++ kubeconfigPath d ++ ": "
                ++ Os.Errno_Error (Os.pe_Err e)
          end).
Proof.
  intros Hs. unfold Kubeconfig. rewrite Hs.
  assert (He : e = Os.mkPathError "stat" (kubeconfigPath d) (Os.pe_Err e)).
  { unfold Os.Stat in Hs.
    destruct (Os.fault (fsys (kubeconfigPath d)));
      [|destruct (Os.present (fsys (kubeconfigPath d)))];
      inversion Hs; reflexivity. }
  cbn [Os.IsNotExist]. rewrite He at 2. unfold Os.PathError_Error.
  cbn [Os.pe_Op Os.pe_Path Os.pe_Err].
  destruct (Os.pe_Err e); reflexivity.
Qed.

Lemma Kubeconfig_error_text_witness :
  Os.Stat MoreSamples.fs_empty (kubeconfigPath Samples.deployer)
    = Some (Os.mkPathError "stat" (kubeconfigPath Samples.deployer) Os.ENOENT) /\
  snd (Kubeconfig MoreSamples.fs_empty Samples.deployer)
  = ("",
     Some "kubeconfig does not exist at: /workspace/_rundir/09a2565a/kubetest2-kubeconfig").
Proof.
  split; [reflexivity|].
  apply (Kubeconfig_error_text MoreSamples.fs_empty Samples.deployer
           (Os.mkPathError "stat" (kubeconfigPath Samples.deployer) Os.ENOENT)).
  reflexivity.
Defined.

End KubeconfigMore.

(** ** [Build]: its calls and its arguments *)

Module BuildMore.
Import NodeImageBuild.
Local Open Scope list_scope.
Local Open Scope nat_scope.

(** X10: [Build] logs, then runs [kind], and stores the common binaries
    exactly when that run succeeded, that is when it returns no error;
    it stores them from the source root into the run directory, and it
    makes no call after a failed run. *)
Theorem Build_calls (h : Host) (d : Deployer) :
  (forall k r,
     In (StoreCommonBinaries k r) (fst (Build h d))
     <-> snd (Build h d) = None /\ k = KubeRoot d
         /\ r = RunDir (commonOptions d)) /\
  exists tail,
    fst (Build h d)
    = KlogInfof "Build(): building kind node image...
"
        :: ExecJUnit "kind" (Build_args h d) (os_Environ h) :: tail /\
    (tail = [] \/
     tail = [StoreCommonBinaries (KubeRoot d) (RunDir (commonOptions d))]).
Proof.
  unfold Build.
  destruct (process_ExecJUnit h "kind" (Build_args h d) (os_Environ h))
    as [err|]; cbn [fst snd app].
  - split.
    + intros k r. split.
      * intros [H|[H|[]]]; discriminate H.
      * intros [H _]. discriminate H.
    + exists []. split; [reflexivity | now left].
  - split.
    + intros k r. split.
      * intros [H|[H|[H|[]]]]; try discriminate H.
        inversion H. repeat split.
      * intros (_ & -> & ->). right. right. now left.
    + eexists. split; [reflexivity | now right].
Qed.

(** X11: the argument vector of [Build] begins with [build node-image]
    and then holds two entries for each option in effect (the build
    type, the source root, and an image, explicit or default): between
    2 and 8 entries in all, and exactly 2 when nothing is set and no
    build was requested. *)
Theorem Build_args_shape (h : Host) (d : Deployer) :
  (exists rest, Build_args h d = "build"%string :: "node-image"%string :: rest) /\
  List.length (Build_args h d)
  = 2 + 2 * (Nat.b2n (negb (BuildType d =? "")%string)
             + Nat.b2n (negb (KubeRoot d =? "")%string)
             + Nat.b2n (negb (NodeImage d =? "")%string
                        || ShouldBuild (commonOptions d))) /\
  2 <= List.length (Build_args h d) <= 8.
Proof.
  unfold Build_args.
  destruct (BuildType d =? "")%string, (KubeRoot d =? "")%string,
    (NodeImage d =? "")%string, (ShouldBuild (commonOptions d));
    cbn [negb orb app List.length Nat.b2n];
    (split; [eexists; reflexivity | split; [reflexivity | lia]]).
Qed.

(** X12: with an explicit image name, the arguments of [Build] depend
    on nothing but the build type, the source root and that name: not
    on whether a build was requested, not on the run, and not on the
    default image name. *)
Theorem Build_args_explicit_image (h1 h2 : Host) (d1 d2 : Deployer) :
  NodeImage d1 <> ""%string ->
  BuildType d1 = BuildType d2 ->
  KubeRoot d1 = KubeRoot d2 ->
  NodeImage d1 = NodeImage d2 ->
  Build_args h1 d1 = Build_args h2 d2.
Proof.
  intros Hne Ht Hk Hi. unfold Build_args. rewrite <- Ht, <- Hk, <- Hi.
  apply String.eqb_neq in Hne. rewrite Hne. reflexivity.
Qed.

Lemma Build_args_explicit_image_witness :
  NodeImage (Samples.build_deployer "my/node:v1" true) <> ""%string /\
  Build_args (Samples.build_host false)
    (Samples.build_deployer "my/node:v1" true)
  = Build_args MoreSamples.other_build_host
      (MoreSamples.other_build_deployer "my/node:v1").
Proof.
  split; [discriminate|].
  apply (Build_args_explicit_image (Samples.build_host false)
           MoreSamples.other_build_host
           (Samples.build_deployer "my/node:v1" true)
           (MoreSamples.other_build_deployer "my/node:v1"));
    [discriminate | reflexivity | reflexivity | reflexivity].
Defined.

End BuildMore.
